(** * The vending machine of [behavioural-patterns/state-pattern/index.ts]

    The file holds two classes named [VendingMachine]: the "naive"
    switch-based one (lines 29-107) and the State-pattern context with its
    four concrete state classes (lines 117-234).  Both are embedded here,
    side by side, over one small model of the JavaScript host: the console
    and the timer queue behind [setTimeout]. *)

From Stdlib Require Import String List Bool ZArith Lia.
From Stdlib Require Import Floats.PrimFloat.
Import ListNotations.
Local Open Scope string_scope.
Local Open Scope list_scope.

(** ** The host: console, timers, and a state monad over them *)

Module Host.

(** A JavaScript [number] is an IEEE-754 double.  The machines only store
    and print amounts; they never compute with them. *)
Definition number : Set := float.

(** What [console.log] receives is a string built with [+].  String
    operands are joined with [++]; a numeric operand is kept as a piece of
    its own, so that the text the host prints for a double stays the
    host's business. *)
Inductive Piece : Set :=
| Str (s : string)
| Num (n : number).

Definition Line : Set := list Piece.

(** [s + x] for a [string | undefined] operand [x]. *)
Definition js_string (x : option string) : string :=
  match x with
  | Some s => s
  | None => "undefined"
  end.

(** The only closure either class hands to [setTimeout]:
    [() => { console.log("Item dispensed successfully."); <reset> }].
    The captured [this] / [context] is the machine of the runtime. *)
Inductive Callback : Set :=
| DispenseDone.

Record Timer : Set := mkTimer { callback : Callback; delay : Z }.

Section Runtime.
Variable M : Type.

(** One machine instance, the timers that are scheduled and have not
    fired, oldest first, and everything printed so far. *)
Record Runtime : Type := mkRuntime
  { vm : M;
    timers : list Timer;
    console : list Line }.

Definition JS (A : Type) : Type := Runtime -> A * Runtime.

Definition ret {A : Type} (a : A) : JS A := fun r => (a, r).

Definition bind {A B : Type} (c : JS A) (k : A -> JS B) : JS B :=
  fun r => let (a, r') := c r in k a r'.

Definition exec {A : Type} (c : JS A) (r : Runtime) : Runtime := snd (c r).

Definition read {A : Type} (f : M -> A) : JS A := fun r => (f (vm r), r).

Definition update (f : M -> M) : JS unit :=
  fun r => (tt, mkRuntime (f (vm r)) (timers r) (console r)).

Definition console_log (l : Line) : JS unit :=
  fun r => (tt, mkRuntime (vm r) (timers r) (console r ++ [l])).

(** [setTimeout(cb, ms)]; the handle it returns is dropped by both
    callers, so none is produced here. *)
Definition setTimeout (cb : Callback) (ms : Z) : JS unit :=
  fun r => (tt, mkRuntime (vm r) (timers r ++ [mkTimer cb ms]) (console r)).

(** The event loop runs the oldest pending timer (every timer of this
    program has the same delay, so the oldest expires first).  There is
    nothing to run when no timer is pending. *)
Definition expire (run_callback : Callback -> JS unit) (r : Runtime)
  : option Runtime :=
  match timers r with
  | [] => None
  | t :: ts =>
      Some (exec (run_callback (callback t)) (mkRuntime (vm r) ts (console r)))
  end.

(** A runtime right after [new VendingMachine()]. *)
Definition boot (m : M) : Runtime := mkRuntime m [] [].

Definition outstanding (r : Runtime) : nat := length (timers r).

End Runtime.

Arguments mkRuntime {M} _ _ _.
Arguments vm {M} _.
Arguments timers {M} _.
Arguments console {M} _.
Arguments ret {M A} _ _.
Arguments bind {M A B} _ _ _.
Arguments exec {M A} _ _.
Arguments read {M A} _ _.
Arguments update {M} _ _.
Arguments console_log {M} _ _.
Arguments setTimeout {M} _ _ _.
Arguments expire {M} _ _.
Arguments boot {M} _.
Arguments outstanding {M} _.

Declare Scope js_scope.
Delimit Scope js_scope with js.
Notation "x <- c ;; k" := (bind c (fun x => k))
  (at level 61, c at next level, right associativity) : js_scope.
Notation "c ;; k" := (bind c (fun _ => k))
  (at level 61, right associativity) : js_scope.

(** Sequencing a list of stimuli through a partial step function. *)
Fixpoint run {R E : Type} (step : E -> R -> option R) (es : list E) (r : R)
  : option R :=
  match es with
  | [] => Some r
  | e :: es' =>
      match step e r with
      | Some r' => run step es' r'
      | None => None
      end
  end.

End Host.

Import Host.
Local Open Scope js_scope.

(** ** The naive, switch-based class (lines 29-107) *)

Module Naive.

Inductive State : Set := IDLE | ITEM_SELECTED | HAS_MONEY | DISPENSING.

Record VendingMachine : Set := mkVM
  { currentState : State;
    selectedItem : string;
    insertedAmount : number }.

(** Field initialisers of the class. *)
Definition constructor : VendingMachine := mkVM IDLE "" 0%float.

Definition set_currentState (s : State) (m : VendingMachine) :=
  mkVM s (selectedItem m) (insertedAmount m).
Definition set_selectedItem (i : string) (m : VendingMachine) :=
  mkVM (currentState m) i (insertedAmount m).
Definition set_insertedAmount (a : number) (m : VendingMachine) :=
  mkVM (currentState m) (selectedItem m) a.

Definition Op := JS VendingMachine unit.

Definition selectItem (itemCode : string) : Op :=
  s <- read currentState ;;
  match s with
  | IDLE =>
      update (set_selectedItem itemCode) ;;
      update (set_currentState ITEM_SELECTED)
  | ITEM_SELECTED => console_log [Str "Item already selected"]
  | HAS_MONEY => console_log [Str "Payment already received for item"]
  | DISPENSING => console_log [Str "Currently dispensing"]
  end.

Definition insertCoin (amount : number) : Op :=
  s <- read currentState ;;
  match s with
  | IDLE => console_log [Str "No item selected"]
  | ITEM_SELECTED =>
      update (set_insertedAmount amount) ;;
      console_log [Str "Inserted $"; Num amount; Str " for item"] ;;
      update (set_currentState HAS_MONEY)
  | HAS_MONEY => console_log [Str "Money already inserted"]
  | DISPENSING => console_log [Str "Currently dispensing"]
  end.

Definition dispenseItem : Op :=
  s <- read currentState ;;
  match s with
  | IDLE => console_log [Str "No item selected"]
  | ITEM_SELECTED => console_log [Str "Please insert coin first"]
  | HAS_MONEY =>
      item <- read selectedItem ;;
      console_log [Str ("Dispensing item '" ++ item ++ "'")] ;;
      update (set_currentState DISPENSING) ;;
      setTimeout DispenseDone 1000
  | DISPENSING => console_log [Str "Already dispensing. Please wait."]
  end.

(** [private resetMachine()]: three assignments. *)
Definition resetMachine : Op :=
  update (set_selectedItem "") ;;
  update (set_insertedAmount 0%float) ;;
  update (set_currentState IDLE).

(** Body of the arrow function of line 91. *)
Definition run_callback (cb : Callback) : Op :=
  match cb with
  | DispenseDone =>
      console_log [Str "Item dispensed successfully."] ;;
      resetMachine
  end.

End Naive.

(** ** The State-pattern classes (lines 117-234) *)

(** Which concrete state class the object in [currentState] belongs to.
    The four classes have no fields, so the class is all there is to a
    state object. *)
Inductive StateTag : Set := Idle | ItemSelected | HasMoney | Dispensing.

(** The context.  [selectedItem] and [insertedAmount] are declared without
    initialiser and the constructor assigns only [currentState]: until
    first written, reading them yields [undefined], here [None]. *)
Record VendingMachine : Set := mkVM
  { currentState : StateTag;
    selectedItem : option string;
    insertedAmount : option number }.

Definition constructor : VendingMachine := mkVM Idle None None.

Definition Op : Type := JS VendingMachine unit.

Definition setState (newState : StateTag) : Op :=
  update (fun m => mkVM newState (selectedItem m) (insertedAmount m)).

Definition setSelectedItem (itemCode : string) : Op :=
  update (fun m => mkVM (currentState m) (Some itemCode) (insertedAmount m)).

Definition setInsertedAmount (amount : number) : Op :=
  update (fun m => mkVM (currentState m) (selectedItem m) (Some amount)).

Definition getSelectedItem : JS VendingMachine (option string) :=
  read selectedItem.

(** [reset()]: three assignments, nothing else. *)
Definition reset : Op :=
  update (fun m => mkVM (currentState m) (Some "") (insertedAmount m)) ;;
  update (fun m => mkVM (currentState m) (selectedItem m) (Some 0%float)) ;;
  update (fun m => mkVM Idle (selectedItem m) (insertedAmount m)).

(** Body of the arrow function of line 170. *)
Definition run_callback (cb : Callback) : Op :=
  match cb with
  | DispenseDone =>
      console_log [Str "Item dispensed successfully."] ;;
      reset
  end.

(** The [MachineState] interface: the three methods every state class
    implements (the [context] argument is the machine of the runtime). *)
Record MachineState : Type := mkState
  { selectItem : string -> Op;
    insertCoin : number -> Op;
    dispenseItem : Op }.

Definition IdleState : MachineState :=
  {| selectItem := fun itemCode =>
       console_log [Str ("Item selected: " ++ itemCode)] ;;
       setSelectedItem itemCode ;;
       setState ItemSelected;
     insertCoin := fun amount =>
       console_log [Str "Please select an item before inserting coins."];
     dispenseItem :=
       console_log [Str "No item selected. Nothing to dispense."] |}.

Definition ItemSelectedState : MachineState :=
  {| selectItem := fun itemCode =>
       item <- getSelectedItem ;;
       console_log [Str ("Item already selected: " ++ js_string item)];
     insertCoin := fun amount =>
       item <- getSelectedItem ;;
       console_log [Str "Inserted $"; Num amount;
                    Str (" for item: " ++ js_string item)] ;;
       setInsertedAmount amount ;;
       setState HasMoney;
     dispenseItem :=
       console_log [Str "Insert coin before dispensing."] |}.

Definition HasMoneyState : MachineState :=
  {| selectItem := fun itemCode =>
       console_log [Str "Cannot change item after inserting money."];
     insertCoin := fun amount =>
       console_log [Str "Money already inserted."];
     dispenseItem :=
       item <- getSelectedItem ;;
       console_log [Str ("Dispensing item: " ++ js_string item)] ;;
       setState Dispensing ;;
       setTimeout DispenseDone 1000 |}.

Definition DispensingState : MachineState :=
  {| selectItem := fun itemCode =>
       console_log [Str "Please wait, dispensing in progress."];
     insertCoin := fun amount =>
       console_log [Str "Please wait, dispensing in progress."];
     dispenseItem :=
       console_log [Str "Already dispensing. Please wait."] |}.

(** Dynamic dispatch on the object held in [currentState]. *)
Definition methods (s : StateTag) : MachineState :=
  match s with
  | Idle => IdleState
  | ItemSelected => ItemSelectedState
  | HasMoney => HasMoneyState
  | Dispensing => DispensingState
  end.

Definition VendingMachine_selectItem (itemCode : string) : Op :=
  s <- read currentState ;; selectItem (methods s) itemCode.

Definition VendingMachine_insertCoin (amount : number) : Op :=
  s <- read currentState ;; insertCoin (methods s) amount.

Definition VendingMachine_dispenseItem : Op :=
  s <- read currentState ;; dispenseItem (methods s).

(** ** Stimuli and executions *)

(** What can happen to a State-pattern machine between two turns of the
    event loop: a caller invokes one of the four public operations, or the
    oldest pending timer expires and its callback runs. *)
Inductive Event : Set :=
| SelectItem (itemCode : string)
| InsertPayment (amount : number)
| RequestDispense
| DispenseComplete
| ResetMachine.

Definition handle (e : Event) (r : Runtime VendingMachine)
  : option (Runtime VendingMachine) :=
  match e with
  | SelectItem itemCode => Some (exec (VendingMachine_selectItem itemCode) r)
  | InsertPayment amount => Some (exec (VendingMachine_insertCoin amount) r)
  | RequestDispense => Some (exec VendingMachine_dispenseItem r)
  | DispenseComplete => expire run_callback r
  | ResetMachine => Some (exec reset r)
  end.

Definition fresh : Runtime VendingMachine := boot constructor.

Definition reachable (r : Runtime VendingMachine) : Prop :=
  exists es, run handle es fresh = Some r.

Definition state_of (r : Runtime VendingMachine) : StateTag :=
  currentState (vm r).

(** The events a caller sends, as opposed to the completion signal and the
    reset. *)
Definition user_event (e : Event) : bool :=
  match e with
  | SelectItem _ | InsertPayment _ | RequestDispense => true
  | DispenseComplete | ResetMachine => false
  end.

(** The transition table of the specification (section 4.1), row by row:
    [true] where the table names a next state, [false] where it has "-". *)
Definition spec_has_rule (s : StateTag) (e : Event) : bool :=
  match s, e with
  | _, ResetMachine => true
  | Idle, SelectItem _ => true
  | ItemSelected, InsertPayment _ => true
  | HasMoney, RequestDispense => true
  | Dispensing, DispenseComplete => true
  | _, _ => false
  end.

(** An execution in which [reset()] is never called while the machine is
    dispensing. *)
Fixpoint quiet_resets (es : list Event) (r : Runtime VendingMachine) : bool :=
  match es with
  | [] => true
  | e :: es' =>
      match e, state_of r with
      | ResetMachine, Dispensing => false
      | _, _ =>
          match handle e r with
          | Some r' => quiet_resets es' r'
          | None => true
          end
      end
  end.

(** The naive class offers three public operations; [resetMachine] is
    private, so the only other thing that can happen to it is a timer
    expiring. *)
Inductive Call : Set :=
| CallSelectItem (itemCode : string)
| CallInsertCoin (amount : number)
| CallDispenseItem
| Completion.

Definition naive_step (c : Call) (r : Runtime Naive.VendingMachine)
  : option (Runtime Naive.VendingMachine) :=
  match c with
  | CallSelectItem itemCode => Some (exec (Naive.selectItem itemCode) r)
  | CallInsertCoin amount => Some (exec (Naive.insertCoin amount) r)
  | CallDispenseItem => Some (exec Naive.dispenseItem r)
  | Completion => expire Naive.run_callback r
  end.

Definition event_of (c : Call) : Event :=
  match c with
  | CallSelectItem itemCode => SelectItem itemCode
  | CallInsertCoin amount => InsertPayment amount
  | CallDispenseItem => RequestDispense
  | Completion => DispenseComplete
  end.

Definition pattern_step (c : Call) : Runtime VendingMachine -> option (Runtime VendingMachine) :=
  handle (event_of c).

Definition naive_fresh : Runtime Naive.VendingMachine := boot Naive.constructor.

(** The state names of the two classes, matched up. *)
Definition tag_of (s : Naive.State) : StateTag :=
  match s with
  | Naive.IDLE => Idle
  | Naive.ITEM_SELECTED => ItemSelected
  | Naive.HAS_MONEY => HasMoney
  | Naive.DISPENSING => Dispensing
  end.

(** The states an execution passes through, one per stimulus that could be
    delivered; the execution stops at a completion with no timer pending. *)
Fixpoint naive_tags (cs : list Call) (r : Runtime Naive.VendingMachine)
  : list StateTag :=
  match cs with
  | [] => []
  | c :: cs' =>
      match naive_step c r with
      | Some r' => tag_of (Naive.currentState (vm r')) :: naive_tags cs' r'
      | None => []
      end
  end.

Fixpoint pattern_tags (cs : list Call) (r : Runtime VendingMachine)
  : list StateTag :=
  match cs with
  | [] => []
  | c :: cs' =>
      match pattern_step c r with
      | Some r' => state_of r' :: pattern_tags cs' r'
      | None => []
      end
  end.

(** The message a refused caller event prints. *)
Definition refusal (s : StateTag) (item : option string) (e : Event) : Line :=
  match s, e with
  | Idle, InsertPayment _ => [Str "Please select an item before inserting coins."]
  | Idle, RequestDispense => [Str "No item selected. Nothing to dispense."]
  | ItemSelected, SelectItem _ =>
      [Str ("Item already selected: " ++ js_string item)]
  | ItemSelected, RequestDispense => [Str "Insert coin before dispensing."]
  | HasMoney, SelectItem _ => [Str "Cannot change item after inserting money."]
  | HasMoney, InsertPayment _ => [Str "Money already inserted."]
  | Dispensing, SelectItem _ => [Str "Please wait, dispensing in progress."]
  | Dispensing, InsertPayment _ => [Str "Please wait, dispensing in progress."]
  | Dispensing, RequestDispense => [Str "Already dispensing. Please wait."]
  | _, _ => []
  end.

(** Where the two classes keep the same data: the State-pattern field holds
    the value of the naive field. *)
Definition fields_agree (n : Naive.VendingMachine) (p : VendingMachine) : Prop :=
  selectedItem p = Some (Naive.selectedItem n)
  /\ insertedAmount p = Some (Naive.insertedAmount n).

(** The same, except that a State-pattern field nobody has written yet is
    matched with the naive initialiser. *)
Definition fields_agree_once_written
  (n : Naive.VendingMachine) (p : VendingMachine) : Prop :=
  (selectedItem p = Some (Naive.selectedItem n)
   \/ selectedItem p = None /\ Naive.selectedItem n = "")
  /\ (insertedAmount p = Some (Naive.insertedAmount n)
      \/ insertedAmount p = None /\ Naive.insertedAmount n = 0%float).

Definition simulates
  (rn : Runtime Naive.VendingMachine) (rp : Runtime VendingMachine) : Prop :=
  tag_of (Naive.currentState (vm rn)) = state_of rp
  /\ timers rn = timers rp
  /\ fields_agree_once_written (vm rn) (vm rp).

(** Single flight: a timer is pending exactly while the machine dispenses,
    and then there is one. *)
Definition single_flight (r : Runtime VendingMachine) : Prop :=
  match state_of r with
  | Dispensing => exists t, timers r = [t]
  | _ => timers r = []
  end.

(** Single flight for the naive class. *)
Definition naive_single_flight (r : Runtime Naive.VendingMachine) : Prop :=
  match Naive.currentState (vm r) with
  | Naive.DISPENSING => exists t, timers r = [t]
  | _ => timers r = []
  end.

(** A machine in [Idle] that has been reset at least once, or never
    touched. *)
Definition idle_is_blank (r : Runtime VendingMachine) : Prop :=
  state_of r = Idle ->
  vm r = constructor \/ vm r = mkVM Idle (Some "") (Some 0%float).

(** ** The demo and some executions to reason about *)

(** [VendingMachineApp.main], after its [new VendingMachine()]: eight
    statements run in one turn of the event loop, so no timer expires
    in between. *)
Definition VendingMachineApp_main : Op :=
  VendingMachine_insertCoin 1%float ;;
  VendingMachine_selectItem "A1" ;;
  VendingMachine_insertCoin 1.5%float ;;
  VendingMachine_dispenseItem ;;
  console_log [Str (String (Ascii.ascii_of_nat 10) "--- Second Transaction ---")] ;;
  VendingMachine_selectItem "B2" ;;
  VendingMachine_insertCoin 2%float ;;
  VendingMachine_dispenseItem.

(** The timer both [dispenseItem]s create. *)
Definition dispense_timer : Timer := mkTimer DispenseDone 1000.

(** A whole purchase: select, pay, dispense, and the completion. *)
Definition purchase (c : string) (a : number) : list Event :=
  [SelectItem c; InsertPayment a; RequestDispense; DispenseComplete].

Definition naive_purchase (c : string) (a : number) : list Call :=
  [CallSelectItem c; CallInsertCoin a; CallDispenseItem; Completion].

(** [n] purchases, each given up by [reset()] while it dispenses. *)
Fixpoint abandoned (n : nat) : list Event :=
  match n with
  | O => []
  | S n' =>
      SelectItem "A1" :: InsertPayment 1.5%float :: RequestDispense
        :: ResetMachine :: abandoned n'
  end.

(** How far a purchase has come. *)
Definition rank (s : StateTag) : nat :=
  match s with
  | Idle => 0
  | ItemSelected => 1
  | HasMoney => 2
  | Dispensing => 3
  end.

(** The fields a state reads or relies on have been written. *)
Definition defined_fields (m : VendingMachine) : Prop :=
  match currentState m with
  | Idle => True
  | ItemSelected => selectedItem m <> None
  | HasMoney | Dispensing => selectedItem m <> None /\ insertedAmount m <> None
  end.

(** Splitting a State-pattern runtime into its fields. *)
Ltac open_runtime r :=
  let s := fresh "s" in
  let it := fresh "item" in
  let am := fresh "amt" in
  let ts := fresh "ts" in
  let out := fresh "out" in
  destruct r as [[s it am] ts out]; cbn in *.

(** * Properties *)

(** ** Sanity checks: the demo of [VendingMachineApp.main] *)

Example main_first_transaction :
  run handle [InsertPayment 1%float; SelectItem "A1"; InsertPayment 1.5%float;
              RequestDispense] fresh
  = Some (mkRuntime (mkVM Dispensing (Some "A1") (Some 1.5%float))
            [mkTimer DispenseDone 1000]
            [[Str "Please select an item before inserting coins."];
             [Str "Item selected: A1"];
             [Str "Inserted $"; Num 1.5%float; Str " for item: A1"];
             [Str "Dispensing item: A1"]]).
Proof. reflexivity. Qed.

Example main_second_transaction_is_refused :
  forall r,
    run handle [InsertPayment 1%float; SelectItem "A1"; InsertPayment 1.5%float;
                RequestDispense] fresh = Some r ->
    exists r',
      run handle [SelectItem "B2"; InsertPayment 2%float; RequestDispense] r
      = Some r'
      /\ vm r' = vm r /\ timers r' = timers r.
Proof.
  intros r H. rewrite main_first_transaction in H.
  injection H as <-. eexists. split; [reflexivity | split; reflexivity].
Qed.

(** The naive class on the same calls, with the timer expiring once the
    synchronous part is over. *)
Example naive_main :
  run naive_step [CallInsertCoin 1%float; CallSelectItem "A1";
                  CallInsertCoin 1.5%float; CallDispenseItem;
                  CallSelectItem "B2"; CallInsertCoin 2%float; CallDispenseItem;
                  Completion] naive_fresh
  = Some (mkRuntime (Naive.mkVM Naive.IDLE "" 0%float) []
            [[Str "No item selected"];
             [Str "Inserted $"; Num 1.5%float; Str " for item"];
             [Str "Dispensing item 'A1'"];
             [Str "Currently dispensing"];
             [Str "Currently dispensing"];
             [Str "Already dispensing. Please wait."];
             [Str "Item dispensed successfully."]]).
Proof. vm_compute. reflexivity. Qed.

(** ** Shapes of the single steps *)

(** [reset()] written out. *)
Lemma reset_runs (r : Runtime VendingMachine) :
  exec reset r
  = mkRuntime (mkVM Idle (Some "") (Some 0%float)) (timers r) (console r).
Proof. open_runtime r. reflexivity. Qed.

(** A timer expiring, written out. *)
Lemma completion_runs m t ts out :
  handle DispenseComplete (mkRuntime m (t :: ts) out)
  = Some (mkRuntime (mkVM Idle (Some "") (Some 0%float)) ts
            (out ++ [[Str "Item dispensed successfully."]])).
Proof. destruct t as [[] d]. reflexivity. Qed.

Lemma completion_needs_timer (r : Runtime VendingMachine) :
  handle DispenseComplete r = None <-> timers r = [].
Proof.
  open_runtime r. unfold expire; cbn. destruct ts; split; intro H;
    try reflexivity; discriminate.
Qed.

Lemma refused_user_event (r : Runtime VendingMachine) (e : Event) :
  user_event e = true ->
  spec_has_rule (state_of r) e = false ->
  handle e r
  = Some (mkRuntime (vm r) (timers r)
            (console r ++ [refusal (state_of r) (selectedItem (vm r)) e])).
Proof.
  intros Hu Hr. open_runtime r.
  destruct e; try discriminate; destruct s; try discriminate; reflexivity.
Qed.

Lemma accepted_payment (r : Runtime VendingMachine) (a : number) :
  state_of r = ItemSelected ->
  handle (InsertPayment a) r
  = Some (mkRuntime (mkVM HasMoney (selectedItem (vm r)) (Some a)) (timers r)
            (console r ++ [[Str "Inserted $"; Num a;
                            Str (" for item: " ++ js_string (selectedItem (vm r)))]])).
Proof. intros Hs. open_runtime r. unfold state_of in Hs; cbn in Hs. subst. reflexivity. Qed.

Lemma accepted_dispense (r : Runtime VendingMachine) :
  state_of r = HasMoney ->
  handle RequestDispense r
  = Some (mkRuntime (mkVM Dispensing (selectedItem (vm r)) (insertedAmount (vm r)))
            (timers r ++ [mkTimer DispenseDone 1000])
            (console r ++ [[Str ("Dispensing item: " ++ js_string (selectedItem (vm r)))]])).
Proof. intros Hs. open_runtime r. unfold state_of in Hs; cbn in Hs. subst. reflexivity. Qed.

Lemma accepted_selection (r : Runtime VendingMachine) (c : string) :
  state_of r = Idle ->
  handle (SelectItem c) r
  = Some (mkRuntime (mkVM ItemSelected (Some c) (insertedAmount (vm r))) (timers r)
            (console r ++ [[Str ("Item selected: " ++ c)]])).
Proof. intros Hs. open_runtime r. unfold state_of in Hs; cbn in Hs. subst. reflexivity. Qed.

(** ** Refused events *)

(** C1 (as amended): for every state S and every caller event E among
    SelectItem, InsertPayment and RequestDispense for which the transition
    table has no rule in S (all three of them while Dispensing), processing
    E leaves the current state, the selected item, the inserted amount and
    the pending timers as they were, and prints exactly one diagnostic
    line. *)
Theorem unlisted_user_event_only_logs (r : Runtime VendingMachine) (e : Event) :
  user_event e = true ->
  spec_has_rule (state_of r) e = false ->
  exists d,
    handle e r = Some (mkRuntime (vm r) (timers r) (console r ++ [d])).
Proof.
  intros Hu Hr. eexists. apply refused_user_event; assumption.
Qed.

Lemma unlisted_user_event_only_logs_witness :
  user_event (SelectItem "B2") = true
  /\ spec_has_rule
       (state_of (mkRuntime (mkVM Dispensing (Some "A1") (Some 1.5%float))
                    [mkTimer DispenseDone 1000] []))
       (SelectItem "B2") = false
  /\ exists d,
       handle (SelectItem "B2")
         (mkRuntime (mkVM Dispensing (Some "A1") (Some 1.5%float))
            [mkTimer DispenseDone 1000] [])
       = Some (mkRuntime (mkVM Dispensing (Some "A1") (Some 1.5%float))
                 [mkTimer DispenseDone 1000] ([] ++ [d])).
Proof.
  split; [reflexivity | split; [reflexivity |]].
  apply (unlisted_user_event_only_logs
           (mkRuntime (mkVM Dispensing (Some "A1") (Some 1.5%float))
              [mkTimer DispenseDone 1000] [])
           (SelectItem "B2")); reflexivity.
Defined.

(** C1 (as stated) fails: the table has no rule for DispenseComplete in
    ItemSelected, yet a timer left over from a dispense that was reset
    expires there and puts the machine back to Idle, clearing the item. *)
Lemma unlisted_completion_changes_state :
  ~ (forall r e r',
        reachable r ->
        spec_has_rule (state_of r) e = false ->
        handle e r = Some r' ->
        currentState (vm r') = currentState (vm r)
        /\ selectedItem (vm r') = selectedItem (vm r)
        /\ insertedAmount (vm r') = insertedAmount (vm r)).
Proof.
  intros H.
  destruct (H (mkRuntime (mkVM ItemSelected (Some "B2") (Some 0%float))
                 [mkTimer DispenseDone 1000]
                 [[Str "Item selected: A1"];
                  [Str "Inserted $"; Num 1.5%float; Str " for item: A1"];
                  [Str "Dispensing item: A1"];
                  [Str "Item selected: B2"]])
              DispenseComplete
              (mkRuntime (mkVM Idle (Some "") (Some 0%float)) []
                 [[Str "Item selected: A1"];
                  [Str "Inserted $"; Num 1.5%float; Str " for item: A1"];
                  [Str "Dispensing item: A1"];
                  [Str "Item selected: B2"];
                  [Str "Item dispensed successfully."]]))
    as [Hs _].
  - exists [SelectItem "A1"; InsertPayment 1.5%float; RequestDispense;
            ResetMachine; SelectItem "B2"].
    reflexivity.
  - reflexivity.
  - reflexivity.
  - discriminate Hs.
Qed.

(** While Dispensing every caller event is refused. *)
Lemma dispensing_refuses_callers (r : Runtime VendingMachine) (e : Event) :
  state_of r = Dispensing ->
  user_event e = true ->
  handle e r
  = Some (mkRuntime (vm r) (timers r)
            (console r ++ [refusal Dispensing (selectedItem (vm r)) e])).
Proof.
  intros Hs Hu. rewrite <- Hs. apply refused_user_event; [exact Hu |].
  rewrite Hs. destruct e; try discriminate Hu; reflexivity.
Qed.

(** C7 (as amended): for every state S and every caller event E among
    SelectItem, InsertPayment and RequestDispense that the table rejects in
    S, processing E twice in succession prints the same diagnostic twice and
    leaves the state, the selected item, the inserted amount and the pending
    timers as they were before the first attempt. *)
Theorem refused_user_event_twice (r : Runtime VendingMachine) (e : Event) :
  user_event e = true ->
  spec_has_rule (state_of r) e = false ->
  exists d r1,
    handle e r = Some r1
    /\ console r1 = console r ++ [d]
    /\ handle e r1 = Some (mkRuntime (vm r) (timers r) (console r ++ [d; d])).
Proof.
  intros Hu Hr.
  exists (refusal (state_of r) (selectedItem (vm r)) e).
  eexists. split; [apply refused_user_event; assumption |].
  split; [reflexivity |].
  rewrite refused_user_event by assumption.
  cbn. rewrite <- app_assoc. reflexivity.
Qed.

Lemma refused_user_event_twice_witness :
  user_event RequestDispense = true
  /\ spec_has_rule (state_of fresh) RequestDispense = false
  /\ exists d r1,
       handle RequestDispense fresh = Some r1
       /\ console r1 = console fresh ++ [d]
       /\ handle RequestDispense r1
          = Some (mkRuntime (vm fresh) (timers fresh) (console fresh ++ [d; d])).
Proof.
  split; [reflexivity | split; [reflexivity |]].
  apply (refused_user_event_twice fresh RequestDispense); reflexivity.
Defined.

(** C7 (as stated) fails: with two timers left over from dispenses that
    were reset, DispenseComplete can be processed twice in ItemSelected,
    where the table rejects it; the diagnostics are equal but the machine
    ends in Idle with the item cleared. *)
Lemma unlisted_completion_twice_drifts :
  ~ (forall r e r1 r2,
        reachable r ->
        spec_has_rule (state_of r) e = false ->
        handle e r = Some r1 ->
        handle e r1 = Some r2 ->
        currentState (vm r2) = currentState (vm r)
        /\ selectedItem (vm r2) = selectedItem (vm r)
        /\ insertedAmount (vm r2) = insertedAmount (vm r)).
Proof.
  intros H.
  pose (es := [SelectItem "A1"; InsertPayment 1.5%float; RequestDispense;
               ResetMachine;
               SelectItem "B2"; InsertPayment 2%float; RequestDispense;
               ResetMachine;
               SelectItem "C3"]).
  destruct (run handle es fresh) as [r |] eqn:Er; [| discriminate Er].
  destruct (handle DispenseComplete r) as [r1 |] eqn:E1;
    [| vm_compute in Er; injection Er as <-; discriminate E1].
  destruct (handle DispenseComplete r1) as [r2 |] eqn:E2;
    [| vm_compute in Er; injection Er as <-;
       vm_compute in E1; injection E1 as <-; discriminate E2].
  destruct (H r DispenseComplete r1 r2) as [Hs _].
  - exists es. exact Er.
  - vm_compute in Er. injection Er as <-. reflexivity.
  - exact E1.
  - exact E2.
  - vm_compute in Er. injection Er as <-.
    vm_compute in E1. injection E1 as <-.
    vm_compute in E2. injection E2 as <-.
    discriminate Hs.
Qed.

(** ** Payments *)

(** C8: for every amount a, InsertPayment(a) while in HasFunds only prints
    "Money already inserted."; the state stays HasFunds and the selected
    item, the amount inserted before and the pending timers are what they
    were, whatever a is. *)
Theorem second_payment_is_dropped (r : Runtime VendingMachine) (a : number) :
  state_of r = HasMoney ->
  handle (InsertPayment a) r
  = Some (mkRuntime (vm r) (timers r)
            (console r ++ [[Str "Money already inserted."]])).
Proof.
  intros Hs.
  rewrite refused_user_event by (rewrite ?Hs; reflexivity).
  rewrite Hs. reflexivity.
Qed.

Lemma second_payment_is_dropped_witness :
  state_of (mkRuntime (mkVM HasMoney (Some "B2") (Some 2%float)) [] []) = HasMoney
  /\ handle (InsertPayment 0.5%float)
       (mkRuntime (mkVM HasMoney (Some "B2") (Some 2%float)) [] [])
     = Some (mkRuntime (mkVM HasMoney (Some "B2") (Some 2%float)) []
               ([] ++ [[Str "Money already inserted."]])).
Proof.
  split; [reflexivity |].
  apply (second_payment_is_dropped
           (mkRuntime (mkVM HasMoney (Some "B2") (Some 2%float)) [] [])
           0.5%float).
  reflexivity.
Defined.

(** C5 (as amended): for every amount a, whatever its sign, InsertPayment(a)
    while in ItemSelected is accepted: a is recorded as the inserted amount,
    the machine moves to HasFunds, the selected item and the pending timers
    are kept, and one line is printed.  There is no payload validation. *)
Theorem payment_is_not_validated (r : Runtime VendingMachine) (a : number) :
  state_of r = ItemSelected ->
  exists d,
    handle (InsertPayment a) r
    = Some (mkRuntime (mkVM HasMoney (selectedItem (vm r)) (Some a)) (timers r)
              (console r ++ [d])).
Proof.
  intros Hs. eexists. apply accepted_payment. exact Hs.
Qed.

Lemma payment_is_not_validated_witness :
  state_of (mkRuntime (mkVM ItemSelected (Some "B2") None) [] []) = ItemSelected
  /\ exists d,
       handle (InsertPayment (-1)%float)
         (mkRuntime (mkVM ItemSelected (Some "B2") None) [] [])
       = Some (mkRuntime (mkVM HasMoney (Some "B2") (Some (-1)%float)) []
                 ([] ++ [d])).
Proof.
  split; [reflexivity |].
  apply (payment_is_not_validated
           (mkRuntime (mkVM ItemSelected (Some "B2") None) [] [])
           (-1)%float).
  reflexivity.
Defined.

(** C5 (as stated) fails: InsertPayment(-1) sent to a machine on which
    "B2" was just selected is accepted; the machine leaves ItemSelected. *)
Lemma negative_payment_is_accepted :
  ~ (forall r a r',
        reachable r ->
        state_of r = ItemSelected ->
        PrimFloat.leb a 0%float = true ->
        handle (InsertPayment a) r = Some r' ->
        state_of r' = ItemSelected
        /\ insertedAmount (vm r') = insertedAmount (vm r)).
Proof.
  intros H.
  destruct (H (mkRuntime (mkVM ItemSelected (Some "B2") None) []
                 [[Str "Item selected: B2"]])
              (-1)%float
              (mkRuntime (mkVM HasMoney (Some "B2") (Some (-1)%float)) []
                 [[Str "Item selected: B2"];
                  [Str "Inserted $"; Num (-1)%float; Str " for item: B2"]]))
    as [Hs _].
  - exists [SelectItem "B2"]. reflexivity.
  - reflexivity.
  - reflexivity.
  - reflexivity.
  - discriminate Hs.
Qed.

(** ** Reset and completion *)

(** C3 (as amended): reset() from any of the four states moves the machine
    to Idle and empties the transaction (selected item the empty string,
    inserted amount 0.0); it prints nothing and leaves every pending timer
    scheduled. *)
Theorem reset_clears_transaction_keeps_timers (r : Runtime VendingMachine) :
  handle ResetMachine r
  = Some (mkRuntime (mkVM Idle (Some "") (Some 0%float)) (timers r) (console r)).
Proof. unfold handle. rewrite reset_runs. reflexivity. Qed.

(** C3 (as stated) fails: after select, pay, dispense, a reset leaves the
    completion timer pending, and it still expires afterwards. *)
Lemma reset_does_not_cancel :
  ~ (forall r r',
        reachable r ->
        handle ResetMachine r = Some r' ->
        state_of r' = Idle
        /\ selectedItem (vm r') = Some ""
        /\ insertedAmount (vm r') = Some 0%float
        /\ handle DispenseComplete r' = None).
Proof.
  intros H.
  destruct (H (mkRuntime (mkVM Dispensing (Some "A1") (Some 1.5%float))
                 [mkTimer DispenseDone 1000]
                 [[Str "Item selected: A1"];
                  [Str "Inserted $"; Num 1.5%float; Str " for item: A1"];
                  [Str "Dispensing item: A1"]])
              (mkRuntime (mkVM Idle (Some "") (Some 0%float))
                 [mkTimer DispenseDone 1000]
                 [[Str "Item selected: A1"];
                  [Str "Inserted $"; Num 1.5%float; Str " for item: A1"];
                  [Str "Dispensing item: A1"]]))
    as (_ & _ & _ & Hc).
  - exists [SelectItem "A1"; InsertPayment 1.5%float; RequestDispense].
    reflexivity.
  - reflexivity.
  - rewrite completion_runs in Hc. discriminate Hc.
Qed.

(** C10: a completion callback resets the machine whatever state it finds
    it in; and after select A1, pay 1.5, dispense, reset, select B2, pay
    2.0, the callback of the first dispense is still pending, and when it
    runs the machine goes from HasFunds with "B2" and 2.0 to Idle with the
    empty item and 0.0. *)
Theorem stale_completion_erases_new_transaction :
  (forall m t ts out,
      handle DispenseComplete (mkRuntime m (t :: ts) out)
      = Some (mkRuntime (mkVM Idle (Some "") (Some 0%float)) ts
                (out ++ [[Str "Item dispensed successfully."]])))
  /\ exists r r',
       run handle [SelectItem "A1"; InsertPayment 1.5%float; RequestDispense;
                   ResetMachine; SelectItem "B2"; InsertPayment 2%float] fresh
       = Some r
       /\ vm r = mkVM HasMoney (Some "B2") (Some 2%float)
       /\ timers r = [mkTimer DispenseDone 1000]
       /\ handle DispenseComplete r = Some r'
       /\ vm r' = mkVM Idle (Some "") (Some 0%float)
       /\ timers r' = [].
Proof.
  split; [exact completion_runs |].
  eexists. eexists.
  split; [vm_compute; reflexivity |].
  split; [reflexivity |].
  split; [reflexivity |].
  split; [rewrite completion_runs; reflexivity |].
  split; reflexivity.
Qed.

(** ** The example scenario *)

(** C4: from a fresh machine, InsertPayment(1.0), SelectItem("B2"),
    InsertPayment(2.0), RequestDispense, DispenseComplete give, in turn: a
    refusal with the machine still Idle; ItemSelected with item "B2";
    HasFunds with "B2" and 2.0; Dispensing with "B2" and exactly one timer
    pending; Idle with the empty item, amount 0.0 and no timer. *)
Theorem example_scenario :
  let l1 := [Str "Please select an item before inserting coins."] in
  let l2 := [Str "Item selected: B2"] in
  let l3 := [Str "Inserted $"; Num 2%float; Str " for item: B2"] in
  let l4 := [Str "Dispensing item: B2"] in
  let l5 := [Str "Item dispensed successfully."] in
  let r1 := mkRuntime constructor [] [l1] in
  let r2 := mkRuntime (mkVM ItemSelected (Some "B2") None) [] [l1; l2] in
  let r3 := mkRuntime (mkVM HasMoney (Some "B2") (Some 2%float)) [] [l1; l2; l3] in
  let r4 := mkRuntime (mkVM Dispensing (Some "B2") (Some 2%float))
              [mkTimer DispenseDone 1000] [l1; l2; l3; l4] in
  let r5 := mkRuntime (mkVM Idle (Some "") (Some 0%float)) []
              [l1; l2; l3; l4; l5] in
  state_of fresh = Idle
  /\ handle (InsertPayment 1%float) fresh = Some r1
  /\ handle (SelectItem "B2") r1 = Some r2
  /\ handle (InsertPayment 2%float) r2 = Some r3
  /\ handle RequestDispense r3 = Some r4
  /\ outstanding r4 = 1
  /\ handle DispenseComplete r4 = Some r5.
Proof. cbv zeta. repeat split. Qed.

(** ** Outstanding completions *)

Lemma single_flight_fresh : single_flight fresh.
Proof. reflexivity. Qed.

(** One step keeps single flight, unless it is a reset while dispensing. *)
Lemma single_flight_step (e : Event) (r r' : Runtime VendingMachine) :
  single_flight r ->
  (e = ResetMachine -> state_of r <> Dispensing) ->
  handle e r = Some r' ->
  single_flight r'.
Proof.
  unfold single_flight, state_of. intros Hinv Hq Hstep.
  destruct r as [[s item amt] ts out]; cbn in Hinv, Hq.
  destruct e.
  - destruct s; injection Hstep as <-; exact Hinv.
  - destruct s; injection Hstep as <-; exact Hinv.
  - destruct s; injection Hstep as <-; try exact Hinv.
    cbn in *. subst ts. eexists. reflexivity.
  - destruct s; try (subst ts; discriminate Hstep).
    destruct Hinv as [t ->]. rewrite completion_runs in Hstep.
    injection Hstep as <-. reflexivity.
  - destruct s; try (exfalso; apply Hq; reflexivity);
      injection Hstep as <-; exact Hinv.
Qed.

Lemma single_flight_run (es : list Event) :
  forall r r',
    single_flight r ->
    quiet_resets es r = true ->
    run handle es r = Some r' ->
    single_flight r'.
Proof.
  induction es as [| e es IH]; intros r r' Hinv Hq Hrun; cbn in Hrun.
  - injection Hrun as <-. exact Hinv.
  - destruct (handle e r) as [r1 |] eqn:Hstep; [| discriminate Hrun].
    apply (IH r1 r'); [| | exact Hrun].
    + apply (single_flight_step e r r1 Hinv); [| exact Hstep].
      intros -> Hd. cbn in Hq. rewrite Hd in Hq. discriminate Hq.
    + cbn in Hq. rewrite Hstep in Hq.
      destruct e; try exact Hq.
      destruct (state_of r); try exact Hq. discriminate Hq.
Qed.

(** Only an accepted dispense adds a timer, and it adds one. *)
Lemma scheduling_step (e : Event) (r r' : Runtime VendingMachine) :
  handle e r = Some r' ->
  outstanding r < outstanding r' ->
  e = RequestDispense
  /\ state_of r = HasMoney
  /\ state_of r' = Dispensing
  /\ timers r' = timers r ++ [mkTimer DispenseDone 1000].
Proof.
  unfold outstanding, state_of. intros Hstep Hlt.
  destruct r as [[s item amt] ts out].
  destruct e; destruct s; cbn in Hstep;
    try (injection Hstep as <-; cbn in Hlt |- *;
         first [lia | repeat split; reflexivity]).
  all: destruct ts as [| [[] d] ts']; cbn in Hstep; try discriminate Hstep;
    injection Hstep as <-; cbn in Hlt; lia.
Qed.

(** C2 (as amended): in every execution from a fresh machine in which
    reset() is never called while the machine is Dispensing, at most one
    completion callback is outstanding at any time, and one is outstanding
    exactly while the machine is Dispensing; and at every step of any
    execution a callback is scheduled only by the transition from HasFunds
    into Dispensing, which schedules exactly one. *)
Theorem single_flight_without_reset_while_dispensing
  (es : list Event) (r : Runtime VendingMachine) :
  quiet_resets es fresh = true ->
  run handle es fresh = Some r ->
  outstanding r <= 1
  /\ (outstanding r = 1 <-> state_of r = Dispensing)
  /\ forall e r',
       handle e r = Some r' ->
       outstanding r < outstanding r' ->
       e = RequestDispense
       /\ state_of r = HasMoney
       /\ state_of r' = Dispensing
       /\ timers r' = timers r ++ [mkTimer DispenseDone 1000].
Proof.
  intros Hq Hrun.
  pose proof (single_flight_run es fresh r single_flight_fresh Hq Hrun) as Hinv.
  unfold single_flight, outstanding in *.
  split; [| split].
  - destruct (state_of r); try (rewrite Hinv; cbn; lia).
    destruct Hinv as [t ->]. cbn. lia.
  - destruct (state_of r); try (rewrite Hinv; cbn; split; intro; discriminate).
    destruct Hinv as [t ->]. cbn. split; reflexivity.
  - intros e r'. apply scheduling_step.
Qed.

Lemma single_flight_without_reset_while_dispensing_witness :
  quiet_resets [SelectItem "A1"; InsertPayment 1.5%float; RequestDispense] fresh
  = true
  /\ run handle [SelectItem "A1"; InsertPayment 1.5%float; RequestDispense] fresh
     = Some (mkRuntime (mkVM Dispensing (Some "A1") (Some 1.5%float))
               [mkTimer DispenseDone 1000]
               [[Str "Item selected: A1"];
                [Str "Inserted $"; Num 1.5%float; Str " for item: A1"];
                [Str "Dispensing item: A1"]])
  /\ outstanding
       (mkRuntime (mkVM Dispensing (Some "A1") (Some 1.5%float))
          [mkTimer DispenseDone 1000]
          [[Str "Item selected: A1"];
           [Str "Inserted $"; Num 1.5%float; Str " for item: A1"];
           [Str "Dispensing item: A1"]]) <= 1.
Proof.
  split; [reflexivity | split; [reflexivity |]].
  apply (single_flight_without_reset_while_dispensing
           [SelectItem "A1"; InsertPayment 1.5%float; RequestDispense]
           (mkRuntime (mkVM Dispensing (Some "A1") (Some 1.5%float))
              [mkTimer DispenseDone 1000]
              [[Str "Item selected: A1"];
               [Str "Inserted $"; Num 1.5%float; Str " for item: A1"];
               [Str "Dispensing item: A1"]]));
    reflexivity.
Defined.

(** C2 (as stated) fails: select, pay, dispense, reset, select, pay,
    dispense leaves two callbacks outstanding, the first neither fired nor
    cancelled when the second is scheduled. *)
Lemma reset_then_dispense_schedules_second :
  ~ (forall es r, run handle es fresh = Some r -> outstanding r <= 1).
Proof.
  intros H.
  specialize (H [SelectItem "A1"; InsertPayment 1.5%float; RequestDispense;
                 ResetMachine;
                 SelectItem "B2"; InsertPayment 2%float; RequestDispense]
                (mkRuntime (mkVM Dispensing (Some "B2") (Some 2%float))
                   [mkTimer DispenseDone 1000; mkTimer DispenseDone 1000]
                   [[Str "Item selected: A1"];
                    [Str "Inserted $"; Num 1.5%float; Str " for item: A1"];
                    [Str "Dispensing item: A1"];
                    [Str "Item selected: B2"];
                    [Str "Inserted $"; Num 2%float; Str " for item: B2"];
                    [Str "Dispensing item: B2"]])
                eq_refl).
  cbn in H. lia.
Qed.

(** The naive class keeps its reset private, so there single flight holds
    in every execution, and no completion ever arrives outside
    DISPENSING. *)
Lemma naive_single_flight_step (c : Call) (r r' : Runtime Naive.VendingMachine) :
  naive_single_flight r ->
  naive_step c r = Some r' ->
  naive_single_flight r'.
Proof.
  unfold naive_single_flight. intros Hinv Hstep.
  destruct r as [[s item amt] ts out]; cbn in Hinv.
  destruct c.
  - destruct s; injection Hstep as <-; exact Hinv.
  - destruct s; injection Hstep as <-; exact Hinv.
  - destruct s; injection Hstep as <-; try exact Hinv.
    cbn in *. subst ts. eexists. reflexivity.
  - destruct s; try (subst ts; discriminate Hstep).
    destruct Hinv as [[[] d] ->]. injection Hstep as <-. reflexivity.
Qed.

Lemma naive_single_flight_run (cs : list Call) :
  forall r0 r,
    naive_single_flight r0 ->
    run naive_step cs r0 = Some r ->
    naive_single_flight r.
Proof.
  induction cs as [| c cs IH]; intros r0 r Hinv Hrun; cbn in Hrun.
  - injection Hrun as <-. exact Hinv.
  - destruct (naive_step c r0) as [r1 |] eqn:Hstep; [| discriminate Hrun].
    exact (IH r1 r (naive_single_flight_step c r0 r1 Hinv Hstep) Hrun).
Qed.

Lemma naive_unlisted_call_only_logs (cs : list Call) r (c : Call) r' :
  run naive_step cs naive_fresh = Some r ->
  spec_has_rule (tag_of (Naive.currentState (vm r))) (event_of c) = false ->
  naive_step c r = Some r' ->
  vm r' = vm r /\ timers r' = timers r
  /\ exists d, console r' = console r ++ [d].
Proof.
  intros Hrun Hrule Hstep.
  assert (Hinv : naive_single_flight r).
  { apply (naive_single_flight_run cs naive_fresh r); [reflexivity | exact Hrun]. }
  unfold naive_single_flight in Hinv.
  destruct r as [[s item amt] ts out]; cbn in Hinv, Hrule.
  destruct c; destruct s; try discriminate Hrule;
    try (injection Hstep as <-; cbn; repeat split; eexists; reflexivity);
    subst ts; discriminate Hstep.
Qed.

(** ** The transaction of an idle machine *)

(** Whatever brings a machine to Idle either found it there and changed
    nothing, or wrote the empty transaction. *)
Lemma idle_is_blank_step (e : Event) (r r' : Runtime VendingMachine) :
  idle_is_blank r ->
  handle e r = Some r' ->
  idle_is_blank r'.
Proof.
  unfold idle_is_blank, state_of. intros Hinv Hstep.
  destruct r as [[s item amt] ts out]; cbn in Hinv.
  destruct e.
  - destruct s; injection Hstep as <-; cbn; intros Hi;
      first [discriminate Hi | auto].
  - destruct s; injection Hstep as <-; cbn; intros Hi;
      first [discriminate Hi | auto].
  - destruct s; injection Hstep as <-; cbn; intros Hi;
      first [discriminate Hi | auto].
  - destruct ts as [| t ts']; [discriminate Hstep |].
    rewrite completion_runs in Hstep. injection Hstep as <-.
    intros _. right. reflexivity.
  - unfold handle in Hstep. rewrite reset_runs in Hstep.
    injection Hstep as <-. intros _. right. reflexivity.
Qed.

Lemma idle_is_blank_reachable (r : Runtime VendingMachine) :
  reachable r -> idle_is_blank r.
Proof.
  intros [es Hrun]. revert r Hrun.
  assert (G : forall r0 r, idle_is_blank r0 -> run handle es r0 = Some r ->
                           idle_is_blank r).
  { induction es as [| e es IH]; intros r0 r H0 Hrun; cbn in Hrun.
    - injection Hrun as <-. exact H0.
    - destruct (handle e r0) as [r1 |] eqn:Hstep; [| discriminate Hrun].
      apply (IH r1 r); [| exact Hrun].
      exact (idle_is_blank_step e r0 r1 H0 Hstep). }
  intros r Hrun. apply (G fresh r); [| exact Hrun].
  intros _. left. reflexivity.
Qed.

(** In the naive class the fields are initialised, so there Idle always
    comes with the empty transaction. *)
Lemma naive_idle_is_empty (cs : list Call) :
  forall r,
    run naive_step cs naive_fresh = Some r ->
    Naive.currentState (vm r) = Naive.IDLE ->
    Naive.selectedItem (vm r) = "" /\ Naive.insertedAmount (vm r) = 0%float.
Proof.
  assert (G : forall r0 r : Runtime Naive.VendingMachine,
             (Naive.currentState (vm r0) = Naive.IDLE ->
              Naive.selectedItem (vm r0) = ""
              /\ Naive.insertedAmount (vm r0) = 0%float) ->
             run naive_step cs r0 = Some r ->
             Naive.currentState (vm r) = Naive.IDLE ->
             Naive.selectedItem (vm r) = ""
             /\ Naive.insertedAmount (vm r) = 0%float).
  { induction cs as [| c cs IH]; intros r0 r H0 Hrun; cbn in Hrun.
    - injection Hrun as <-. exact H0.
    - destruct (naive_step c r0) as [r1 |] eqn:Hstep; [| discriminate Hrun].
      apply (IH r1 r); [| exact Hrun].
      clear IH Hrun. destruct r0 as [[s item amt] ts out]; cbn in H0.
      destruct c.
      + destruct s; injection Hstep as <-; cbn; intros Hi;
          first [discriminate Hi | auto].
      + destruct s; injection Hstep as <-; cbn; intros Hi;
          first [discriminate Hi | auto].
      + destruct s; injection Hstep as <-; cbn; intros Hi;
          first [discriminate Hi | auto].
      + destruct ts as [| [[] d] ts']; [discriminate Hstep |].
        injection Hstep as <-. intros _. split; reflexivity. }
  intros r Hrun. apply (G naive_fresh r); [| exact Hrun].
  intros _. split; reflexivity.
Qed.

(** C6: the machine right after [new VendingMachine()], before any event:
    its state is Idle, and its selected item and inserted amount are
    undefined, neither the empty string nor 0.0. *)
Theorem fresh_machine_transaction_undefined :
  reachable fresh
  /\ state_of fresh = Idle
  /\ selectedItem (vm fresh) = None
  /\ insertedAmount (vm fresh) = None
  /\ selectedItem (vm fresh) <> Some ""
  /\ insertedAmount (vm fresh) <> Some 0%float.
Proof.
  split; [exists []; reflexivity |].
  repeat split; discriminate.
Qed.

(** ** The two classes side by side *)

Lemma simulates_fresh : simulates naive_fresh fresh.
Proof.
  split; [reflexivity | split; [reflexivity |]].
  split; right; split; reflexivity.
Qed.

(** A call both machines can take keeps them in step; and a completion is
    possible on one exactly when it is on the other. *)
Lemma simulates_step (c : Call) rn rp :
  simulates rn rp ->
  match naive_step c rn, pattern_step c rp with
  | Some rn', Some rp' => simulates rn' rp'
  | None, None => True
  | _, _ => False
  end.
Proof.
  unfold simulates, fields_agree_once_written, state_of.
  destruct rn as [[sn itemn amtn] tsn outn].
  destruct rp as [[sp itemp amtp] tsp outp]. cbn.
  intros (Hs & Ht & Hi & Ha). subst tsn.
  destruct c.
  - destruct sn; cbn in Hs; subst sp; cbn; auto 6.
  - destruct sn; cbn in Hs; subst sp; cbn; auto 6.
  - destruct sn; cbn in Hs; subst sp; cbn; auto 6.
  - unfold pattern_step, naive_step, expire; cbn.
    destruct tsp as [| [[] d] ts']; cbn; auto 6.
Qed.

(** The two classes pass through the same states. *)
Lemma same_state_tags (cs : list Call) :
  forall rn rp,
    simulates rn rp -> naive_tags cs rn = pattern_tags cs rp.
Proof.
  induction cs as [| c cs IH]; intros rn rp Hsim; cbn; [reflexivity |].
  pose proof (simulates_step c rn rp Hsim) as Hstep.
  destruct (naive_step c rn) as [rn' |], (pattern_step c rp) as [rp' |];
    try contradiction; [| reflexivity].
  rewrite (IH rn' rp' Hstep).
  destruct Hstep as [-> _]. reflexivity.
Qed.

Lemma same_state_tags_from_fresh (cs : list Call) :
  naive_tags cs naive_fresh = pattern_tags cs fresh.
Proof. apply same_state_tags, simulates_fresh. Qed.

(** ... and end with the same fields wherever the State-pattern machine has
    written its own. *)
Lemma same_fields_once_written (cs : list Call) :
  forall rn rp,
    run naive_step cs naive_fresh = Some rn ->
    run pattern_step cs fresh = Some rp ->
    fields_agree_once_written (vm rn) (vm rp).
Proof.
  assert (G : forall rn0 rp0 rn rp,
             simulates rn0 rp0 ->
             run naive_step cs rn0 = Some rn ->
             run pattern_step cs rp0 = Some rp ->
             simulates rn rp).
  { induction cs as [| c cs IH]; intros rn0 rp0 rn rp Hsim Hn Hp; cbn in Hn, Hp.
    - injection Hn as <-. injection Hp as <-. exact Hsim.
    - pose proof (simulates_step c rn0 rp0 Hsim) as Hstep.
      destruct (naive_step c rn0) as [rn1 |]; [| discriminate Hn].
      destruct (pattern_step c rp0) as [rp1 |]; [| discriminate Hp].
      exact (IH rn1 rp1 rn rp Hstep Hn Hp). }
  intros rn rp Hn Hp.
  destruct (G naive_fresh fresh rn rp simulates_fresh Hn Hp) as (_ & _ & H).
  exact H.
Qed.

(** C9: on freshly constructed instances the two classes do not hold equal
    fields: before any call the naive machine has the empty item and 0.0
    where the State-pattern machine has undefined, and after the single
    call selectItem("A1") both are in ItemSelected with item "A1" but the
    inserted amounts are 0.0 and undefined. *)
Theorem fresh_instances_fields_differ :
  ~ fields_agree (vm naive_fresh) (vm fresh)
  /\ exists rn rp,
       run naive_step [CallSelectItem "A1"] naive_fresh = Some rn
       /\ run pattern_step [CallSelectItem "A1"] fresh = Some rp
       /\ tag_of (Naive.currentState (vm rn)) = state_of rp
       /\ Naive.selectedItem (vm rn) = "A1"
       /\ selectedItem (vm rp) = Some "A1"
       /\ Naive.insertedAmount (vm rn) = 0%float
       /\ insertedAmount (vm rp) = None
       /\ ~ fields_agree (vm rn) (vm rp).
Proof.
  split.
  - intros [H _]. discriminate H.
  - eexists. eexists.
    split; [vm_compute; reflexivity |].
    split; [vm_compute; reflexivity |].
    repeat split. intros [_ H]. discriminate H.
Qed.

(** * Further properties of the two classes *)

(** ** Executions in general *)

(** A property every step keeps holds at the end of every execution. *)
Lemma run_keeps {R E : Type} (step : E -> R -> option R) (P : R -> Prop) :
  (forall e r r', P r -> step e r = Some r' -> P r') ->
  forall es r r', P r -> run step es r = Some r' -> P r'.
Proof.
  intros Hstep es. induction es as [| e es IH]; intros r r' HP Hrun; cbn in Hrun.
  - injection Hrun as <-. exact HP.
  - destruct (step e r) as [r1 |] eqn:H1; [| discriminate Hrun].
    exact (IH r1 r' (Hstep e r r1 HP H1) Hrun).
Qed.

Lemma pattern_run_is_handle_run (cs : list Call) :
  forall r, run pattern_step cs r = run handle (map event_of cs) r.
Proof.
  induction cs as [| c cs IH]; intros r; cbn; [reflexivity |].
  unfold pattern_step at 1. destruct (handle (event_of c) r); [apply IH | reflexivity].
Qed.

(** ** The demo *)

Example main_runs :
  exec VendingMachineApp_main fresh
  = mkRuntime (mkVM Dispensing (Some "A1") (Some 1.5%float)) [dispense_timer]
      [[Str "Please select an item before inserting coins."];
       [Str "Item selected: A1"];
       [Str "Inserted $"; Num 1.5%float; Str " for item: A1"];
       [Str "Dispensing item: A1"];
       [Str (String (Ascii.ascii_of_nat 10) "--- Second Transaction ---")];
       [Str "Please wait, dispensing in progress."];
       [Str "Please wait, dispensing in progress."];
       [Str "Already dispensing. Please wait."]].
Proof. vm_compute. reflexivity. Qed.

(** ** The naive class on its own *)

(** X1: in every execution of the naive class, from construction on, at
    most one completion timer is pending, and one is pending exactly while
    the machine is DISPENSING. *)
Theorem naive_always_single_flight
  (cs : list Call) (r : Runtime Naive.VendingMachine) :
  run naive_step cs naive_fresh = Some r ->
  outstanding r <= 1
  /\ (outstanding r = 1 <-> Naive.currentState (vm r) = Naive.DISPENSING).
Proof.
  intros Hrun.
  assert (Hinv : naive_single_flight r).
  { apply (naive_single_flight_run cs naive_fresh r); [reflexivity | exact Hrun]. }
  unfold naive_single_flight, outstanding in *.
  destruct (Naive.currentState (vm r));
    try (rewrite Hinv; cbn; split; [lia | split; intro; discriminate]).
  destruct Hinv as [t ->]. cbn. split; [lia | split; reflexivity].
Qed.

Lemma naive_always_single_flight_witness :
  run naive_step
    [CallSelectItem "A1"; CallInsertCoin 1.5%float; CallDispenseItem;
     CallDispenseItem] naive_fresh
  = Some (mkRuntime (Naive.mkVM Naive.DISPENSING "A1" 1.5%float) [dispense_timer]
            [[Str "Inserted $"; Num 1.5%float; Str " for item"];
             [Str "Dispensing item 'A1'"];
             [Str "Already dispensing. Please wait."]])
  /\ outstanding
       (mkRuntime (Naive.mkVM Naive.DISPENSING "A1" 1.5%float) [dispense_timer]
          [[Str "Inserted $"; Num 1.5%float; Str " for item"];
           [Str "Dispensing item 'A1'"];
           [Str "Already dispensing. Please wait."]]) <= 1.
Proof.
  split; [reflexivity |].
  apply (naive_always_single_flight
           [CallSelectItem "A1"; CallInsertCoin 1.5%float; CallDispenseItem;
            CallDispenseItem]
           (mkRuntime (Naive.mkVM Naive.DISPENSING "A1" 1.5%float) [dispense_timer]
              [[Str "Inserted $"; Num 1.5%float; Str " for item"];
               [Str "Dispensing item 'A1'"];
               [Str "Already dispensing. Please wait."]])).
  reflexivity.
Defined.

(** X2: in the naive class, in every state an execution can reach, a call
    or completion for which the state has no transition changes neither
    the machine nor the timers and prints exactly one line; a completion
    in particular never arrives outside DISPENSING. *)
Theorem naive_refusals_only_log
  (cs : list Call) (r : Runtime Naive.VendingMachine) (c : Call)
  (r' : Runtime Naive.VendingMachine) :
  run naive_step cs naive_fresh = Some r ->
  spec_has_rule (tag_of (Naive.currentState (vm r))) (event_of c) = false ->
  naive_step c r = Some r' ->
  c <> Completion
  /\ vm r' = vm r /\ timers r' = timers r
  /\ exists d, console r' = console r ++ [d].
Proof.
  intros Hrun Hrule Hstep.
  split; [| exact (naive_unlisted_call_only_logs cs r c r' Hrun Hrule Hstep)].
  intros ->.
  assert (Hinv : naive_single_flight r).
  { apply (naive_single_flight_run cs naive_fresh r); [reflexivity | exact Hrun]. }
  unfold naive_single_flight in Hinv.
  destruct r as [[s item amt] ts out]; cbn in Hinv, Hrule.
  destruct s; try discriminate Hrule; subst ts; discriminate Hstep.
Qed.

Lemma naive_refusals_only_log_witness :
  run naive_step [CallSelectItem "A1"] naive_fresh
  = Some (mkRuntime (Naive.mkVM Naive.ITEM_SELECTED "A1" 0%float) [] [])
  /\ naive_step CallDispenseItem
       (mkRuntime (Naive.mkVM Naive.ITEM_SELECTED "A1" 0%float) [] [])
     = Some (mkRuntime (Naive.mkVM Naive.ITEM_SELECTED "A1" 0%float) []
               [[Str "Please insert coin first"]])
  /\ CallDispenseItem <> Completion.
Proof.
  split; [reflexivity | split; [reflexivity |]].
  apply (naive_refusals_only_log [CallSelectItem "A1"]
           (mkRuntime (Naive.mkVM Naive.ITEM_SELECTED "A1" 0%float) [] [])
           CallDispenseItem
           (mkRuntime (Naive.mkVM Naive.ITEM_SELECTED "A1" 0%float) []
              [[Str "Please insert coin first"]]));
    reflexivity.
Defined.

(** X3: in the naive class, whenever an execution leaves the machine in
    IDLE, the selected item is the empty string and the inserted amount is
    0.0. *)
Theorem naive_idle_has_empty_transaction
  (cs : list Call) (r : Runtime Naive.VendingMachine) :
  run naive_step cs naive_fresh = Some r ->
  Naive.currentState (vm r) = Naive.IDLE ->
  vm r = Naive.constructor.
Proof.
  intros Hrun Hs.
  destruct (naive_idle_is_empty cs r Hrun Hs) as [Hi Ha].
  destruct r as [[s item amt] ts out]; cbn in *. subst. reflexivity.
Qed.

Lemma naive_idle_has_empty_transaction_witness :
  run naive_step (naive_purchase "A1" 1.5%float) naive_fresh
  = Some (mkRuntime (Naive.mkVM Naive.IDLE "" 0%float) []
            [[Str "Inserted $"; Num 1.5%float; Str " for item"];
             [Str "Dispensing item 'A1'"];
             [Str "Item dispensed successfully."]])
  /\ vm (mkRuntime (Naive.mkVM Naive.IDLE "" 0%float) []
            [[Str "Inserted $"; Num 1.5%float; Str " for item"];
             [Str "Dispensing item 'A1'"];
             [Str "Item dispensed successfully."]])
     = Naive.constructor.
Proof.
  split; [reflexivity |].
  apply (naive_idle_has_empty_transaction (naive_purchase "A1" 1.5%float)
           (mkRuntime (Naive.mkVM Naive.IDLE "" 0%float) []
              [[Str "Inserted $"; Num 1.5%float; Str " for item"];
               [Str "Dispensing item 'A1'"];
               [Str "Item dispensed successfully."]]));
    reflexivity.
Defined.

(** ** Fields and the states that read them *)

Lemma defined_fields_step (e : Event) (r r' : Runtime VendingMachine) :
  defined_fields (vm r) ->
  handle e r = Some r' ->
  defined_fields (vm r').
Proof.
  unfold defined_fields. intros Hinv Hstep.
  destruct r as [[s item amt] ts out]; cbn in Hinv.
  destruct e.
  - destruct s; injection Hstep as <-; cbn; try exact Hinv. discriminate.
  - destruct s; injection Hstep as <-; cbn; try exact Hinv.
    split; [exact Hinv | discriminate].
  - destruct s; injection Hstep as <-; cbn; exact Hinv.
  - destruct ts as [| t ts']; [discriminate Hstep |].
    rewrite completion_runs in Hstep. injection Hstep as <-. exact I.
  - unfold handle in Hstep. rewrite reset_runs in Hstep.
    injection Hstep as <-. exact I.
Qed.

Lemma defined_fields_run (es : list Event) (r : Runtime VendingMachine) :
  run handle es fresh = Some r -> defined_fields (vm r).
Proof.
  apply (run_keeps handle (fun r => defined_fields (vm r)) defined_fields_step).
  exact I.
Qed.

(** X4: although a new State-pattern machine has undefined fields, no
    state that reads them ever sees [undefined]: in every reachable state
    other than Idle the selected item is a string, and in HasMoney and
    Dispensing the inserted amount is a number. *)
Theorem fields_defined_outside_idle (r : Runtime VendingMachine) :
  reachable r ->
  (state_of r <> Idle -> exists c, selectedItem (vm r) = Some c)
  /\ (state_of r = HasMoney \/ state_of r = Dispensing ->
      exists a, insertedAmount (vm r) = Some a).
Proof.
  intros [es Hrun]. pose proof (defined_fields_run es r Hrun) as H.
  unfold defined_fields, state_of in *.
  destruct (vm r) as [s item amt]; cbn in *.
  split.
  - intros Hs. destruct s; try (exfalso; apply Hs; reflexivity);
      destruct item as [c |]; try (exists c; reflexivity);
      exfalso; try (apply H; reflexivity); destruct H as [H _]; apply H; reflexivity.
  - intros [Hs | Hs]; subst s; destruct H as [_ H];
      (destruct amt as [a |]; [exists a; reflexivity | exfalso; apply H; reflexivity]).
Qed.

Lemma fields_defined_outside_idle_witness :
  reachable (mkRuntime (mkVM ItemSelected (Some "A1") None) []
               [[Str "Item selected: A1"]])
  /\ (state_of (mkRuntime (mkVM ItemSelected (Some "A1") None) []
                  [[Str "Item selected: A1"]]) <> Idle ->
      exists c, Some "A1" = Some c).
Proof.
  assert (Hr : reachable (mkRuntime (mkVM ItemSelected (Some "A1") None) []
                            [[Str "Item selected: A1"]])).
  { exists [SelectItem "A1"]. reflexivity. }
  split; [exact Hr |].
  exact (proj1 (fields_defined_outside_idle _ Hr)).
Defined.

(** ** The two classes compared *)

(** X5: on every sequence of calls and completions, applied to newly
    constructed instances, the naive class and the State-pattern class
    pass through the same states, and stop at the same place if a
    completion has no timer to run. *)
Theorem classes_traverse_same_states (cs : list Call) :
  naive_tags cs naive_fresh = pattern_tags cs fresh.
Proof. apply same_state_tags. exact simulates_fresh. Qed.

(** X6: after the same calls on new instances, the two classes hold the
    same selected item whenever the State-pattern machine is not Idle, and
    the same inserted amount whenever it is in HasMoney or Dispensing. *)
Theorem classes_agree_on_live_fields
  (cs : list Call) (rn : Runtime Naive.VendingMachine)
  (rp : Runtime VendingMachine) :
  run naive_step cs naive_fresh = Some rn ->
  run pattern_step cs fresh = Some rp ->
  (state_of rp <> Idle -> selectedItem (vm rp) = Some (Naive.selectedItem (vm rn)))
  /\ (state_of rp = HasMoney \/ state_of rp = Dispensing ->
      insertedAmount (vm rp) = Some (Naive.insertedAmount (vm rn))).
Proof.
  intros Hn Hp.
  destruct (same_fields_once_written cs rn rp Hn Hp) as [Hi Ha].
  rewrite pattern_run_is_handle_run in Hp.
  pose proof (defined_fields_run _ rp Hp) as Hd.
  unfold defined_fields, state_of in *.
  destruct (vm rp) as [s item amt]; cbn in *.
  split.
  - intros Hs. destruct Hi as [Hi | [Hi _]]; [exact Hi |]. exfalso.
    destruct s; try (apply Hs; reflexivity); try (apply Hd; exact Hi);
      destruct Hd as [Hd _]; apply Hd; exact Hi.
  - intros Hs. destruct Ha as [Ha | [Ha _]]; [exact Ha |]. exfalso.
    destruct Hs as [-> | ->]; destruct Hd as [_ Hd]; apply Hd; exact Ha.
Qed.

Lemma classes_agree_on_live_fields_witness :
  run naive_step [CallSelectItem "B2"; CallInsertCoin 2%float] naive_fresh
  = Some (mkRuntime (Naive.mkVM Naive.HAS_MONEY "B2" 2%float) []
            [[Str "Inserted $"; Num 2%float; Str " for item"]])
  /\ run pattern_step [CallSelectItem "B2"; CallInsertCoin 2%float] fresh
     = Some (mkRuntime (mkVM HasMoney (Some "B2") (Some 2%float)) []
               [[Str "Item selected: B2"];
                [Str "Inserted $"; Num 2%float; Str " for item: B2"]])
  /\ (HasMoney = HasMoney \/ HasMoney = Dispensing ->
      Some 2%float = Some 2%float).
Proof.
  split; [reflexivity | split; [reflexivity |]].
  exact (proj2 (classes_agree_on_live_fields
                  [CallSelectItem "B2"; CallInsertCoin 2%float]
                  (mkRuntime (Naive.mkVM Naive.HAS_MONEY "B2" 2%float) []
                     [[Str "Inserted $"; Num 2%float; Str " for item"]])
                  (mkRuntime (mkVM HasMoney (Some "B2") (Some 2%float)) []
                     [[Str "Item selected: B2"];
                      [Str "Inserted $"; Num 2%float; Str " for item: B2"]])
                  eq_refl eq_refl)).
Defined.

(** ** A busy machine *)

(** X7: while the State-pattern machine is Dispensing, any sequence of
    selectItem, insertCoin and dispenseItem calls, however long, leaves the
    machine and the pending timers exactly as they were and prints one line
    per call. *)
Theorem dispensing_ignores_callers
  (es : list Event) (r : Runtime VendingMachine) :
  state_of r = Dispensing ->
  forallb user_event es = true ->
  exists ls,
    run handle es r = Some (mkRuntime (vm r) (timers r) (console r ++ ls))
    /\ length ls = length es.
Proof.
  revert r. induction es as [| e es IH]; intros r Hs Hu.
  - exists []. rewrite app_nil_r. destruct r. split; reflexivity.
  - cbn in Hu. apply andb_prop in Hu. destruct Hu as [He Hes].
    cbn. rewrite (dispensing_refuses_callers r e Hs He).
    destruct (IH (mkRuntime (vm r) (timers r)
                    (console r ++ [refusal Dispensing (selectedItem (vm r)) e]))
                 Hs Hes) as (ls & Hrun & Hlen).
    exists (refusal Dispensing (selectedItem (vm r)) e :: ls).
    split; [| cbn; rewrite Hlen; reflexivity].
    rewrite Hrun. cbn. rewrite <- app_assoc. reflexivity.
Qed.

Lemma dispensing_ignores_callers_witness :
  state_of (mkRuntime (mkVM Dispensing (Some "A1") (Some 1.5%float))
              [dispense_timer] []) = Dispensing
  /\ forallb user_event [SelectItem "B2"; InsertPayment 2%float; RequestDispense]
     = true
  /\ exists ls,
       run handle [SelectItem "B2"; InsertPayment 2%float; RequestDispense]
         (mkRuntime (mkVM Dispensing (Some "A1") (Some 1.5%float))
            [dispense_timer] [])
       = Some (mkRuntime (mkVM Dispensing (Some "A1") (Some 1.5%float))
                 [dispense_timer] ([] ++ ls))
       /\ length ls = 3.
Proof.
  split; [reflexivity | split; [reflexivity |]].
  apply (dispensing_ignores_callers
           [SelectItem "B2"; InsertPayment 2%float; RequestDispense]
           (mkRuntime (mkVM Dispensing (Some "A1") (Some 1.5%float))
              [dispense_timer] []));
    reflexivity.
Defined.

(** ** Timers *)

(** X8: no operation of the State-pattern machine ever removes a pending
    timer: after anything but a completion the old timers are still there,
    in order, with at most new ones behind them; a completion removes
    exactly the oldest. *)
Theorem timers_are_never_cancelled (e : Event) (r r' : Runtime VendingMachine) :
  handle e r = Some r' ->
  match e with
  | DispenseComplete => exists t, timers r = t :: timers r'
  | RequestDispense =>
      timers r' = timers r
      \/ state_of r = HasMoney /\ timers r' = timers r ++ [dispense_timer]
  | _ => timers r' = timers r
  end.
Proof.
  intros Hstep. destruct r as [[s item amt] ts out].
  destruct e.
  - destruct s; injection Hstep as <-; reflexivity.
  - destruct s; injection Hstep as <-; reflexivity.
  - destruct s; injection Hstep as <-;
      first [left; reflexivity | right; split; reflexivity].
  - destruct ts as [| t ts']; [discriminate Hstep |].
    rewrite completion_runs in Hstep. injection Hstep as <-.
    exists t. reflexivity.
  - unfold handle in Hstep. rewrite reset_runs in Hstep.
    injection Hstep as <-. reflexivity.
Qed.

Lemma timers_are_never_cancelled_witness :
  handle ResetMachine
    (mkRuntime (mkVM Dispensing (Some "A1") (Some 1.5%float)) [dispense_timer] [])
  = Some (mkRuntime (mkVM Idle (Some "") (Some 0%float)) [dispense_timer] [])
  /\ timers (mkRuntime (mkVM Idle (Some "") (Some 0%float)) [dispense_timer] [])
     = timers (mkRuntime (mkVM Dispensing (Some "A1") (Some 1.5%float))
                 [dispense_timer] []).
Proof.
  split; [reflexivity |].
  apply (timers_are_never_cancelled ResetMachine
           (mkRuntime (mkVM Dispensing (Some "A1") (Some 1.5%float))
              [dispense_timer] [])
           (mkRuntime (mkVM Idle (Some "") (Some 0%float)) [dispense_timer] [])).
  reflexivity.
Defined.

Lemma abandoned_from_idle (n : nat) :
  forall r,
    state_of r = Idle ->
    exists out,
      run handle (abandoned n) r
      = Some (mkRuntime (if Nat.eqb n 0 then vm r
                         else mkVM Idle (Some "") (Some 0%float))
                (timers r ++ repeat dispense_timer n) out).
Proof.
  induction n as [| n IH]; intros r Hs.
  - exists (console r). cbn. rewrite app_nil_r. destruct r; reflexivity.
  - destruct r as [[s item amt] ts out]. unfold state_of in Hs; cbn in Hs. subst s.
    pose (r1 := mkRuntime (mkVM Idle (Some "") (Some 0%float))
                  (ts ++ [dispense_timer])
                  (((out ++ [[Str "Item selected: A1"]])
                      ++ [[Str "Inserted $"; Num 1.5%float; Str " for item: A1"]])
                     ++ [[Str "Dispensing item: A1"]])).
    destruct (IH r1 eq_refl) as [out' Hrun].
    exists out'.
    change (run handle (abandoned (S n)) (mkRuntime (mkVM Idle item amt) ts out))
      with (run handle (abandoned n) r1).
    rewrite Hrun. unfold r1. cbn [Nat.eqb vm timers repeat].
    rewrite <- app_assoc. cbn [app].
    destruct (Nat.eqb n 0); reflexivity.
Qed.

(** X9: the number of completion callbacks pending at once has no bound:
    for every n, n purchases each abandoned by reset() while dispensing
    leave the machine in Idle with n timers pending. *)
Theorem outstanding_is_unbounded (n : nat) :
  exists r,
    run handle (abandoned n) fresh = Some r
    /\ state_of r = Idle
    /\ outstanding r = n.
Proof.
  destruct (abandoned_from_idle n fresh eq_refl) as [out Hrun].
  eexists. split; [exact Hrun |]. split.
  - unfold state_of. cbn. destruct (Nat.eqb n 0); reflexivity.
  - unfold outstanding. cbn. apply repeat_length.
Qed.

Lemma timers_uniform_step (e : Event) (r r' : Runtime VendingMachine) :
  Forall (eq dispense_timer) (timers r) ->
  handle e r = Some r' ->
  Forall (eq dispense_timer) (timers r').
Proof.
  intros Hinv Hstep. destruct r as [[s item amt] ts out]; cbn in Hinv.
  destruct e.
  - destruct s; injection Hstep as <-; exact Hinv.
  - destruct s; injection Hstep as <-; exact Hinv.
  - destruct s; injection Hstep as <-; try exact Hinv.
    cbn. apply Forall_app. split; [exact Hinv |].
    constructor; [reflexivity | constructor].
  - destruct ts as [| t ts']; [discriminate Hstep |].
    rewrite completion_runs in Hstep. injection Hstep as <-.
    cbn. inversion Hinv; assumption.
  - unfold handle in Hstep. rewrite reset_runs in Hstep.
    injection Hstep as <-. exact Hinv.
Qed.

(** X10: every timer a State-pattern machine ever has pending carries the
    same callback and the same delay of 1000 ms, so pending timers expire
    in the order they were created. *)
Theorem pending_timers_are_uniform (r : Runtime VendingMachine) :
  reachable r -> Forall (eq dispense_timer) (timers r).
Proof.
  intros [es Hrun].
  apply (run_keeps handle (fun r => Forall (eq dispense_timer) (timers r))
           timers_uniform_step es fresh r); [constructor | exact Hrun].
Qed.

Lemma pending_timers_are_uniform_witness :
  reachable (mkRuntime (mkVM Idle (Some "") (Some 0%float)) [dispense_timer]
               [[Str "Item selected: A1"];
                [Str "Inserted $"; Num 1.5%float; Str " for item: A1"];
                [Str "Dispensing item: A1"]])
  /\ Forall (eq dispense_timer) [dispense_timer].
Proof.
  assert (Hr : reachable
                 (mkRuntime (mkVM Idle (Some "") (Some 0%float)) [dispense_timer]
                    [[Str "Item selected: A1"];
                     [Str "Inserted $"; Num 1.5%float; Str " for item: A1"];
                     [Str "Dispensing item: A1"]])).
  { exists (abandoned 1). reflexivity. }
  split; [exact Hr |].
  exact (pending_timers_are_uniform _ Hr).
Defined.

(** ** Whole purchases *)

(** X11: from any Idle State-pattern machine, for every item code c and
    amount a, select c, pay a, dispense and one completion bring the
    machine back to Idle with the empty transaction; four lines are
    printed, naming c and a; the timer of this dispense joins the queue and
    the oldest pending timer is the one consumed. *)
Theorem purchase_returns_to_idle
  (r : Runtime VendingMachine) (c : string) (a : number) :
  state_of r = Idle ->
  run handle (purchase c a) r
  = Some (mkRuntime (mkVM Idle (Some "") (Some 0%float))
            (tl (timers r ++ [dispense_timer]))
            (console r ++ [[Str ("Item selected: " ++ c)];
                           [Str "Inserted $"; Num a; Str (" for item: " ++ c)];
                           [Str ("Dispensing item: " ++ c)];
                           [Str "Item dispensed successfully."]])).
Proof.
  intros Hs. destruct r as [[s item amt] ts out].
  unfold state_of in Hs; cbn in Hs. subst s.
  unfold purchase. cbn [run].
  rewrite accepted_selection by reflexivity.
  rewrite accepted_payment by reflexivity.
  rewrite accepted_dispense by reflexivity.
  cbn [vm timers console selectedItem insertedAmount js_string].
  destruct ts as [| t ts']; cbn [app tl]; rewrite completion_runs;
    repeat rewrite <- app_assoc; reflexivity.
Qed.

Lemma purchase_returns_to_idle_witness :
  state_of fresh = Idle
  /\ run handle (purchase "B2" 2%float) fresh
     = Some (mkRuntime (mkVM Idle (Some "") (Some 0%float))
               (tl (timers fresh ++ [dispense_timer]))
               (console fresh
                  ++ [[Str ("Item selected: " ++ "B2")];
                      [Str "Inserted $"; Num 2%float; Str (" for item: " ++ "B2")];
                      [Str ("Dispensing item: " ++ "B2")];
                      [Str "Item dispensed successfully."]])).
Proof.
  split; [reflexivity |].
  apply (purchase_returns_to_idle fresh "B2" 2%float). reflexivity.
Defined.

(** X12: from any IDLE naive machine, for every item code c and amount a,
    select c, pay a, dispense and one completion bring the machine back to
    IDLE with the empty item and 0.0; three lines are printed (the
    selection prints nothing, and the payment line does not name the
    item). *)
Theorem naive_purchase_returns_to_idle
  (r : Runtime Naive.VendingMachine) (c : string) (a : number) :
  Naive.currentState (vm r) = Naive.IDLE ->
  run naive_step (naive_purchase c a) r
  = Some (mkRuntime Naive.constructor
            (tl (timers r ++ [dispense_timer]))
            (console r ++ [[Str "Inserted $"; Num a; Str " for item"];
                           [Str ("Dispensing item '" ++ c ++ "'")];
                           [Str "Item dispensed successfully."]])).
Proof.
  intros Hs. destruct r as [[s item amt] ts out]. cbn in Hs. subst s.
  destruct ts as [| [[] d] ts']; cbn; repeat rewrite <- app_assoc; reflexivity.
Qed.

Lemma naive_purchase_returns_to_idle_witness :
  Naive.currentState (vm naive_fresh) = Naive.IDLE
  /\ run naive_step (naive_purchase "B2" 2%float) naive_fresh
     = Some (mkRuntime Naive.constructor
               (tl (timers naive_fresh ++ [dispense_timer]))
               (console naive_fresh
                  ++ [[Str "Inserted $"; Num 2%float; Str " for item"];
                      [Str ("Dispensing item '" ++ "B2" ++ "'")];
                      [Str "Item dispensed successfully."]])).
Proof.
  split; [reflexivity |].
  apply (naive_purchase_returns_to_idle naive_fresh "B2" 2%float). reflexivity.
Defined.

(** ** What a single event can and cannot do *)

(** X13: every selectItem, insertCoin, dispenseItem and completion of the
    State-pattern machine appends exactly one line to the console, reset()
    appends none, and nothing printed earlier is changed. *)
Theorem one_line_per_event (e : Event) (r r' : Runtime VendingMachine) :
  handle e r = Some r' ->
  exists ls,
    console r' = console r ++ ls
    /\ length ls = match e with ResetMachine => 0 | _ => 1 end.
Proof.
  intros Hstep. destruct r as [[s item amt] ts out].
  destruct e.
  - destruct s; injection Hstep as <-; eexists; split; reflexivity.
  - destruct s; injection Hstep as <-; eexists; split; reflexivity.
  - destruct s; injection Hstep as <-; eexists; split; reflexivity.
  - destruct ts as [| t ts']; [discriminate Hstep |].
    rewrite completion_runs in Hstep. injection Hstep as <-.
    eexists; split; reflexivity.
  - unfold handle in Hstep. rewrite reset_runs in Hstep.
    injection Hstep as <-. exists []. split; [| reflexivity].
    cbn. rewrite app_nil_r. reflexivity.
Qed.

Lemma one_line_per_event_witness :
  handle (InsertPayment 1%float) fresh
  = Some (mkRuntime constructor []
            [[Str "Please select an item before inserting coins."]])
  /\ exists ls,
       [[Str "Please select an item before inserting coins."]] = [] ++ ls
       /\ length ls = 1.
Proof.
  split; [reflexivity |].
  apply (one_line_per_event (InsertPayment 1%float) fresh
           (mkRuntime constructor []
              [[Str "Please select an item before inserting coins."]])).
  reflexivity.
Defined.



(** X15: a caller's operation never moves the State-pattern machine
    backwards and never skips a stage: after selectItem, insertCoin or
    dispenseItem the state is the same or the next one in the order Idle,
    ItemSelected, HasMoney, Dispensing; only reset() and a completion lead
    back, and they always lead to Idle. *)
Theorem states_advance_one_at_a_time
  (e : Event) (r r' : Runtime VendingMachine) :
  handle e r = Some r' ->
  if user_event e
  then rank (state_of r) <= rank (state_of r') <= S (rank (state_of r))
  else state_of r' = Idle.
Proof.
  intros Hstep. destruct r as [[s item amt] ts out]. unfold state_of; cbn.
  destruct e; cbn.
  - destruct s; injection Hstep as <-; cbn; lia.
  - destruct s; injection Hstep as <-; cbn; lia.
  - destruct s; injection Hstep as <-; cbn; lia.
  - destruct ts as [| t ts']; [discriminate Hstep |].
    rewrite completion_runs in Hstep. injection Hstep as <-. reflexivity.
  - unfold handle in Hstep. rewrite reset_runs in Hstep.
    injection Hstep as <-. reflexivity.
Qed.

Lemma states_advance_one_at_a_time_witness :
  handle RequestDispense
    (mkRuntime (mkVM HasMoney (Some "A1") (Some 1.5%float)) [] [])
  = Some (mkRuntime (mkVM Dispensing (Some "A1") (Some 1.5%float))
            [dispense_timer] [[Str "Dispensing item: A1"]])
  /\ rank HasMoney <= rank Dispensing <= S (rank HasMoney).
Proof.
  split; [reflexivity |].
  apply (states_advance_one_at_a_time RequestDispense
           (mkRuntime (mkVM HasMoney (Some "A1") (Some 1.5%float)) [] [])
           (mkRuntime (mkVM Dispensing (Some "A1") (Some 1.5%float))
              [dispense_timer] [[Str "Dispensing item: A1"]])).
  reflexivity.
Defined.
